(** * audiophile-server: the products resource

    A shallow embedding of the products CRUD service
    (src/products/products.service.ts, products.controller.ts, the DTOs of
    src/products/dtos and the entity of product.entity.ts), of the global
    ValidationPipe configured in main.ts and of the part of typeorm's
    Repository<Product> the service calls, over one PostgreSQL table.

    Conventions.
    - A JavaScript object whose properties may be undefined is a record of
      options: [None] is an absent (undefined) property.
    - A string is a [string]; its length is the number of its characters, as
      class-validator's MinLength / MaxLength count them.
    - A timestamp is an integer (the database clock reading).  The id a
      route receives is a JavaScript number, an integer or not; the keys of
      the table are integers.
    - An async method is a state transformer over the database that either
      returns a value or throws an HttpException. *)

From stdpp Require Import base option list strings gmap fin_maps.
From Stdlib Require Import ZArith Lia.

Local Open Scope string_scope.
Local Open Scope Z_scope.

(** ** Request bodies *)

(** A parsed JSON value.  A request body is a JSON object, that is a finite
    map from field names to values: the properties class-validator is given
    to check. *)
#[warnings="-register-all"]
Inductive json : Type :=
  | JNull
  | JBool (b : bool)
  | JNumber (n : Z)
  | JString (s : string)
  | JArray (items : list json)
  | JObject (fields : list (string * json)).

(** ** Numbers *)

(** A JavaScript number, as far as the code depends on it: an integer, or
    anything else a number can be (a number with a fraction, NaN, an
    infinity).  The id of a route is the number [+segment] of its path. *)
Inductive number : Type :=
  | Integer (z : Z)
  | NotInteger.

Coercion Integer : Z >-> number.

(** The values of a PostgreSQL [integer], the type of the column behind
    [@PrimaryGeneratedColumn()]. *)
Definition int4 (z : Z) : bool :=
  (-2147483648 <=? z) && (z <=? 2147483647).

(** ** product.entity.ts *)

(** An instance of the entity class.  [id], [created_at] and [updated_at]
    are generated by the database, so an instance built by
    [Repository.create] has none of them yet. *)
Module Product.
Record t : Type := Build {
  id : option Z;
  title : option string;
  description : option string;
  created_at : option Z;
  updated_at : option Z
}.
End Product.

(** ** dtos/create-product.dto.ts and dtos/update-product.dto.ts *)

(** The decorators of class-validator the DTO uses. *)
Inductive Decorator : Type :=
  | IsString
  | MinLength (min : nat)
  | MaxLength (max : nat).

Module CreateProductDto.
Record t : Type := Build {
  title : option string;
  description : option string
}.

(** The decorated properties of the class, in declaration order. *)
Definition metadata : list (string * list Decorator) :=
  [ ("title", [IsString; MinLength 6; MaxLength 32]);
    ("description", [IsString; MinLength 32; MaxLength 1024]) ].
End CreateProductDto.

(** [export class UpdateProductDto extends CreateProductDto {}]: the
    subclass declares nothing of its own and inherits the properties and
    their decorators. *)
Module UpdateProductDto.
Definition t : Type := CreateProductDto.t.
Definition metadata : list (string * list Decorator) :=
  CreateProductDto.metadata.
End UpdateProductDto.

(** The class a handler declares for its [@Body()] parameter. *)
Inductive Metatype : Type :=
  | CreateProductDtoClass
  | UpdateProductDtoClass.

Definition metadata_of (m : Metatype) : list (string * list Decorator) :=
  match m with
  | CreateProductDtoClass => CreateProductDto.metadata
  | UpdateProductDtoClass => UpdateProductDto.metadata
  end.

(** ** class-validator *)

Definition constraint_name (d : Decorator) : string :=
  match d with
  | IsString => "isString"
  | MinLength _ => "minLength"
  | MaxLength _ => "maxLength"
  end.

(** Whether a property value satisfies a decorator.  Every one of the three
    fails on a value that is not a string, an undefined one included. *)
Definition satisfies (d : Decorator) (v : option json) : bool :=
  match v with
  | Some (JString s) =>
      match d with
      | IsString => true
      | MinLength min => (min <=? String.length s)%nat
      | MaxLength max => (String.length s <=? max)%nat
      end
  | _ => false
  end.

Module ValidationError.
Record t : Type := Build {
  property : string;
  constraints : list string
}.
End ValidationError.

Definition declared (m : Metatype) : list string := (metadata_of m).*1.

(** [whitelist: true, forbidNonWhitelisted: true]: every property of the
    object that carries no decorator is an error. *)
Definition whitelist_errors (m : Metatype) (obj : gmap string json)
    : list ValidationError.t :=
  omap (fun kv : string * json =>
          if bool_decide (kv.1 ∈ declared m) then None
          else Some (ValidationError.Build kv.1 ["whitelistValidation"]))
       (map_to_list obj).

Definition property_errors (obj : gmap string json)
    (decl : string * list Decorator) : option ValidationError.t :=
  match filter (fun d => negb (satisfies d (obj !! decl.1))) decl.2 with
  | [] => None
  | failed => Some (ValidationError.Build decl.1 (constraint_name <$> failed))
  end.

Definition validate (m : Metatype) (obj : gmap string json)
    : list ValidationError.t :=
  whitelist_errors m obj ++ omap (property_errors obj) (metadata_of m).

(** ** The database *)

(** A row of table "products": every column is [nullable: false]. *)
Record Row : Type := {
  row_title : string;
  row_description : string;
  row_created_at : Z;
  row_updated_at : Z
}.

(** The repository calls that reach the database. *)
Inductive Access : Type :=
  | AFind
  | AFindOne (id : number)
  | APreload (id : number)
  | ASave
  | ARemove (id : Z).

(** The table keyed by its primary column, the sequence behind
    [@PrimaryGeneratedColumn()], the clock the date columns read, and the
    accesses made so far (most recent last). *)
Record Db : Type := {
  rows : gmap Z Row;
  products_id_seq : Z;
  clock : Z;
  log : list Access
}.

Definition empty_db : Db :=
  {| rows := ∅; products_id_seq := 1; clock := 0; log := [] |}.

Definition set_rows (f : gmap Z Row → gmap Z Row) (s : Db) : Db :=
  {| rows := f (rows s); products_id_seq := products_id_seq s;
     clock := clock s; log := log s |}.

Definition set_clock (t : Z) (s : Db) : Db :=
  {| rows := rows s; products_id_seq := products_id_seq s;
     clock := t; log := log s |}.

Definition advance_seq (s : Db) : Db :=
  {| rows := rows s; products_id_seq := products_id_seq s + 1;
     clock := clock s; log := log s |}.

Definition record_access (a : Access) (s : Db) : Db :=
  {| rows := rows s; products_id_seq := products_id_seq s;
     clock := clock s; log := log s ++ [a] |}.

(** ** Promises and exceptions *)

Inductive HttpException : Type :=
  | BadRequest (errors : list ValidationError.t)
  | NotFound
  | InternalServerError.

(** What a lookup by id comes to when no row is found: the database
    answers with no row for a value of the column's type, and refuses the
    query for any other number, which the service does not catch. *)
Definition miss (id : number) : HttpException :=
  match id with
  | Integer z => if int4 z then NotFound else InternalServerError
  | NotInteger => InternalServerError
  end.

Inductive Outcome (A : Type) : Type :=
  | Return (a : A)
  | Throw (e : HttpException).
Arguments Return {A} a.
Arguments Throw {A} e.

Definition Promise (A : Type) : Type := Db → Outcome A * Db.

Definition resolve {A} (a : A) : Promise A := fun s => (Return a, s).
Definition throw {A} (e : HttpException) : Promise A := fun s => (Throw e, s).
Definition await {A B} (p : Promise A) (k : A → Promise B) : Promise B :=
  fun s =>
    match p s with
    | (Return a, s') => k a s'
    | (Throw e, s') => (Throw e, s')
    end.

Declare Scope promise_scope.
Delimit Scope promise_scope with promise.
Notation "'const' x ':=' 'await' p ';' k" :=
  (await p (fun x => k))
  (at level 10, x name, p at level 100, k at level 200,
   format "'[v' 'const'  x  ':='  'await'  p ';' '/' k ']'") : promise_scope.
Local Open Scope promise_scope.

(** ** typeorm: Repository<Product> *)

Module Repository.

(** The entity instance a row is loaded into. *)
Definition hydrate (id : Z) (r : Row) : Product.t :=
  Product.Build (Some id) (Some (row_title r)) (Some (row_description r))
                (Some (row_created_at r)) (Some (row_updated_at r)).

(** [find()]: every row, in the order the database yields them. *)
Definition find : Promise (list Product.t) := fun s =>
  (Return ((fun kv : Z * Row => hydrate kv.1 kv.2) <$> map_to_list (rows s)),
   record_access AFind s).

(** The SELECT of the row whose primary key equals the number [id].  A row
    is only ever found under a value of the column's type; where none is
    found the database answers with no row when [id] is such a value, and
    the query fails when it is an integer outside the 32-bit range or no
    integer at all. *)
Definition select_by_id (id : number) (s : Db) : Outcome (option (Z * Row)) :=
  match id with
  | Integer z =>
      match rows s !! z with
      | Some r => Return (Some (z, r))
      | None => if int4 z then Return None else Throw InternalServerError
      end
  | NotInteger => Throw InternalServerError
  end.

(** [findOne({ where: { id } })]. *)
Definition findOne (id : number) : Promise (option Product.t) := fun s =>
  match select_by_id id s with
  | Return found =>
      (Return ((fun kr : Z * Row => hydrate kr.1 kr.2) <$> found),
       record_access (AFindOne id) s)
  | Throw e => (Throw e, record_access (AFindOne id) s)
  end.

(** [create(dto)]: a new instance carrying the DTO's properties; nothing
    is sent to the database. *)
Definition create (dto : CreateProductDto.t) : Product.t :=
  Product.Build None (CreateProductDto.title dto)
                (CreateProductDto.description dto) None None.

(** A property after a merge: the new value when it is defined. *)
Definition assign {A} (old new : option A) : option A :=
  match new with
  | Some v => Some v
  | None => old
  end.

(** [merge]: the defined properties of the DTO overwrite those of [e]. *)
Definition merge (e : Product.t) (properties : CreateProductDto.t)
    : Product.t :=
  Product.Build (Product.id e)
                (assign (Product.title e) (CreateProductDto.title properties))
                (assign (Product.description e)
                        (CreateProductDto.description properties))
                (Product.created_at e) (Product.updated_at e).

(** [preload({ id, ...properties })]: loads the row whose primary key is
    [id] and merges the properties onto it; resolves to undefined when no
    such row exists. *)
Definition preload (id : number) (properties : CreateProductDto.t)
    : Promise (option Product.t) := fun s =>
  match select_by_id id s with
  | Return found =>
      (Return ((fun kr : Z * Row => merge (hydrate kr.1 kr.2) properties)
                 <$> found),
       record_access (APreload id) s)
  | Throw e => (Throw e, record_access (APreload id) s)
  end.

(** INSERT of a row under key [id]: the two text columns must be given,
    the date columns default to the clock, the key must be free. *)
Definition insert_row (id : Z) (e : Product.t) : Promise Product.t := fun s =>
  match Product.title e, Product.description e, rows s !! id with
  | Some t, Some d, None =>
      let r := {| row_title := t; row_description := d;
                  row_created_at := default (clock s) (Product.created_at e);
                  row_updated_at := default (clock s) (Product.updated_at e) |} in
      (Return (hydrate id r), set_rows (insert id r) s)
  | _, _, _ => (Throw InternalServerError, s)
  end.

(** The value to write for a column: the instance's, when it is defined
    and differs from the stored one. *)
Definition changed {A} `{EqDecision A} (mine : option A) (stored : A)
    : option A :=
  match mine with
  | Some v => if decide (v = stored) then None else Some v
  | None => None
  end.

(** UPDATE of the row [r] under key [id] from the instance [e]: typeorm
    compares the instance with the row it loaded and writes only the changed
    columns; when there are none no statement is issued, otherwise
    [@UpdateDateColumn] sets [updated_at] to the clock unless the instance
    changes it itself.  The instance comes back with the stored
    [updated_at]. *)
Definition update_row (id : Z) (r : Row) (e : Product.t) : Promise Product.t :=
  fun s =>
    match changed (Product.title e) (row_title r),
          changed (Product.description e) (row_description r),
          changed (Product.created_at e) (row_created_at r),
          changed (Product.updated_at e) (row_updated_at r) with
    | None, None, None, None => (Return e, s)
    | ct, cd, cc, cu =>
        let r' := {| row_title := default (row_title r) ct;
                     row_description := default (row_description r) cd;
                     row_created_at := default (row_created_at r) cc;
                     row_updated_at := default (clock s) cu |} in
        (Return (Product.Build (Product.id e) (Product.title e)
                               (Product.description e) (Product.created_at e)
                               (Some (row_updated_at r'))),
         set_rows (insert id r') s)
    end.

(** [save(e)]: an instance without a primary key is inserted under the
    next value of the sequence; one with a primary key is updated when its
    row exists and inserted under that key otherwise. *)
Definition save (e : Product.t) : Promise Product.t := fun s =>
  let s := record_access ASave s in
  match Product.id e with
  | None => insert_row (products_id_seq s) e (advance_seq s)
  | Some id =>
      match rows s !! id with
      | Some r => update_row id r e s
      | None => insert_row id e s
      end
  end.

(** [remove(e)]: deletes the row with the primary key of [e] and resolves
    to [e] itself, from which typeorm has removed the primary key (it clears
    the ids of the entities it removed), the other properties untouched. *)
Definition remove (e : Product.t) : Promise Product.t := fun s =>
  match Product.id e with
  | None => (Throw InternalServerError, s)
  | Some id =>
      (Return (Product.Build None (Product.title e) (Product.description e)
                             (Product.created_at e) (Product.updated_at e)),
       set_rows (delete id) (record_access (ARemove id) s))
  end.

End Repository.

(** ** products.service.ts *)

Module ProductsService.

(* READ ALL *)
Definition getProducts : Promise (list Product.t) :=
  Repository.find.

(* READ ONE *)
Definition getProduct (id : number) : Promise Product.t :=
  const product := await Repository.findOne id;
  match product with
  | None => throw NotFound
  | Some product => resolve product
  end.

(* CREATE *)
Definition createProduct (createProductDto : CreateProductDto.t)
    : Promise Product.t :=
  let product := Repository.create createProductDto in
  Repository.save product.

(* UPDATE *)
Definition updateProduct (id : number) (updateProductDto : UpdateProductDto.t)
    : Promise Product.t :=
  const product := await Repository.preload id updateProductDto;
  match product with
  | None => throw NotFound
  | Some product => Repository.save product
  end.

(* DELETE *)
Definition deleteProduct (id : number) : Promise Product.t :=
  const post := await getProduct id;
  Repository.remove post.

End ProductsService.

(** ** main.ts: the global ValidationPipe *)

Definition as_string (v : option json) : option string :=
  match v with
  | Some (JString s) => Some s
  | _ => None
  end.

(** [transform: true]: the body becomes an instance of the declared class. *)
Definition plainToInstance (body : gmap string json) : CreateProductDto.t :=
  CreateProductDto.Build (as_string (body !! "title"))
                         (as_string (body !! "description")).

Definition ValidationPipe (m : Metatype) (body : gmap string json)
    : Promise CreateProductDto.t :=
  match validate m body with
  | [] => resolve (plainToInstance body)
  | errors => throw (BadRequest errors)
  end.

(** ** products.controller.ts *)

Inductive Request : Type :=
  | GET_products
  | GET_product (id : number)
  | POST_products (body : gmap string json)
  | PUT_product (id : number) (body : gmap string json)
  | DELETE_product (id : number).

Inductive Response : Type :=
  | ProductList (products : list Product.t)
  | OneProduct (product : Product.t).

Module ProductsController.

Definition getProducts : Promise Response :=
  const products := await ProductsService.getProducts;
  resolve (ProductList products).

Definition getProduct (id : number) : Promise Response :=
  const product := await ProductsService.getProduct id;
  resolve (OneProduct product).

Definition createProduct (body : gmap string json) : Promise Response :=
  const createProductDto := await ValidationPipe CreateProductDtoClass body;
  const product := await ProductsService.createProduct createProductDto;
  resolve (OneProduct product).

Definition updateProduct (id : number) (body : gmap string json)
    : Promise Response :=
  const updateProductDto := await ValidationPipe UpdateProductDtoClass body;
  const product := await ProductsService.updateProduct id updateProductDto;
  resolve (OneProduct product).

Definition deleteProduct (id : number) : Promise Response :=
  const product := await ProductsService.deleteProduct id;
  resolve (OneProduct product).

Definition handle (r : Request) : Promise Response :=
  match r with
  | GET_products => getProducts
  | GET_product id => getProduct id
  | POST_products body => createProduct body
  | PUT_product id body => updateProduct id body
  | DELETE_product id => deleteProduct id
  end.

End ProductsController.

(** ** The server *)

(** A request served when the database clock reads [t]. *)
Definition serve (t : Z) (r : Request) (s : Db) : Outcome Response * Db :=
  ProductsController.handle r (set_clock t s).

(** The databases the server can be in: it starts on the empty table and
    serves one request after the other, the database clock never running
    backwards. *)
Inductive reachable : Db → Prop :=
  | reachable_empty : reachable empty_db
  | reachable_serve (t : Z) (r : Request) (s : Db) :
      reachable s → (clock s ≤ t)%Z → reachable (serve t r s).2.

(** ** What the specification calls a valid input *)

(** A property holding a string of [min] to [max] characters. *)
Definition within (min max : nat) (v : option json) : Prop :=
  ∃ s, v = Some (JString s) ∧ (min ≤ String.length s ≤ max)%nat.

(** Both fields present within their bounds, and no other field. *)
Definition valid_body (body : gmap string json) : Prop :=
  within 6 32 (body !! "title") ∧
  within 32 1024 (body !! "description") ∧
  ∀ k, is_Some (body !! k) → k ∈ ["title"; "description"].

(** The table and the sequence, whatever the clock and the access log. *)
Definition same_storage (s s' : Db) : Prop :=
  rows s' = rows s ∧ products_id_seq s' = products_id_seq s.

(** ** The rows the service writes *)

(** The row [updateProduct] leaves under a key that held [r], when the
    clock reads [now]: the DTO's defined fields replace the stored ones, and
    [updated_at] is stamped when a stored value changes. *)
Definition updated_row (now : Z) (r : Row) (dto : UpdateProductDto.t) : Row :=
  let t := default (row_title r) (CreateProductDto.title dto) in
  let d := default (row_description r) (CreateProductDto.description dto) in
  if decide (t = row_title r ∧ d = row_description r) then r
  else {| row_title := t; row_description := d;
          row_created_at := row_created_at r; row_updated_at := now |}.

(** The row [createProduct] inserts when the clock reads [now]. *)
Definition created_row (now : Z) (t d : string) : Row :=
  {| row_title := t; row_description := d;
     row_created_at := now; row_updated_at := now |}.

(** ** The specification's reading of Update *)

(** Update as the specification words it: the existence check is the
    lookup of Get, then the fields present in the input are merged onto the
    current record, which is persisted. *)
Definition updateProduct_through_getProduct
    (id : number) (dto : UpdateProductDto.t) : Promise Product.t :=
  const current := await ProductsService.getProduct id;
  Repository.save (Repository.merge current dto).

(** ** The invariant of the table *)

(** The bounds of the data model on one row. *)
Definition row_ok (r : Row) : Prop :=
  (6 ≤ String.length (row_title r) ≤ 32)%nat ∧
  (32 ≤ String.length (row_description r) ≤ 1024)%nat ∧
  row_created_at r ≤ row_updated_at r.

(** The invariant that goes through every request: the rows are within
    bounds and not stamped later than the clock reads, and the sequence is
    ahead of every key in use. *)
Definition db_ok (s : Db) : Prop :=
  (∀ id r, rows s !! id = Some r → row_ok r ∧ row_updated_at r ≤ clock s) ∧
  (∀ id, is_Some (rows s !! id) → id < products_id_seq s).

(** ** A sample table *)

Definition speaker_body : gmap string json :=
  {[ "title" := JString "Speaker A";
     "description" := JString "A two-way bookshelf speaker, sold in pairs." ]}.

(** The table after one product was created at clock reading 10. *)
Definition one_speaker : Db := (serve 10 (POST_products speaker_body) empty_db).2.

Definition speaker_row : Row :=
  created_row 10 "Speaker A" "A two-way bookshelf speaker, sold in pairs.".

(** ** Runs and addressed rows *)

(** The key a request addresses: the id in its path, when it has one and
    it is an integer. *)
Definition route_id (r : Request) : option Z :=
  match r with
  | GET_product (Integer id) | PUT_product (Integer id) _
  | DELETE_product (Integer id) => Some id
  | _ => None
  end.

(** The row under the key a number is: none when it is no integer. *)
Definition row_at (id : number) (s : Db) : option Row :=
  match id with
  | Integer z => rows s !! z
  | NotInteger => None
  end.

(** [serves_to s s']: the server gets from [s] to [s'] by serving requests
    one after the other, the database clock never running backwards. *)
Inductive serves_to (s : Db) : Db → Prop :=
  | serves_to_refl : serves_to s s
  | serves_to_step (t : Z) (r : Request) (s1 : Db) :
      serves_to s s1 → (clock s1 ≤ t)%Z → serves_to s (serve t r s1).2.

(** ** app.module.ts and main.ts: configuration *)

(** The Joi schemas the module uses: [Joi.string()] and [Joi.number()],
    with or without [.required()]. *)
Inductive JoiType : Type :=
  | JoiString
  | JoiNumber.

Record JoiKey : Type := {
  joi_type : JoiType;
  joi_required : bool
}.

(** The [validationSchema] of [ConfigModule.forRoot]. *)
Definition validationSchema : list (string * JoiKey) :=
  [ ("POSTGRES_HOST", {| joi_type := JoiString; joi_required := true |});
    ("POSTGRES_PORT", {| joi_type := JoiNumber; joi_required := true |});
    ("POSTGRES_USER", {| joi_type := JoiString; joi_required := true |});
    ("POSTGRES_PASSWORD", {| joi_type := JoiString; joi_required := true |});
    ("POSTGRES_DB", {| joi_type := JoiString; joi_required := true |});
    ("PORT", {| joi_type := JoiNumber; joi_required := false |});
    ("FRONTEND_URL", {| joi_type := JoiString; joi_required := false |}) ].

Inductive JoiError : Type :=
  | AnyRequired
  | StringEmpty
  | NumberBase.

(** What starting the process comes to: the configuration is refused,
    [app.listen] throws on a port that is no port number, or the server asks
    the system for the port and allows one origin (whether the system grants
    the port is outside the model). *)
Inductive Startup : Type :=
  | ConfigError (errors : list (string * JoiError))
  | ListenError (port : number)
  | Listening (port : number) (origin : option string).

(** The ports [listen] takes: the integers from 0 to 65535. *)
Definition valid_port (port : number) : bool :=
  match port with
  | Integer z => (0 <=? z) && (z <=? 65535)
  | NotInteger => false
  end.

Section config.
(** The conversion Joi applies to a variable declared [Joi.number()] (an
    environment variable is a string). *)
Context (Number : string → option number).

(** One variable against its schema: an absent variable is an error only
    when required, a string must not be empty, a number must convert. *)
Definition joi_check (k : JoiKey) (v : option string) : option JoiError :=
  match v with
  | None => if joi_required k then Some AnyRequired else None
  | Some v =>
      match joi_type k with
      | JoiString => if decide (v = "") then Some StringEmpty else None
      | JoiNumber =>
          match Number v with
          | Some _ => None
          | None => Some NumberBase
          end
      end
  end.

(** The environment against the schema: every declared variable is
    checked, the variables the schema does not declare are allowed. *)
Definition config_errors (env : gmap string string)
    : list (string * JoiError) :=
  omap (fun decl : string * JoiKey =>
          (fun e => (decl.1, e)) <$> joi_check decl.2 (env !! decl.1))
       validationSchema.

(** [bootstrap]: the module is built only from a valid configuration; the
    port is [configService.get("PORT") ?? 3000], the allowed origin is
    [configService.get("FRONTEND_URL")], and [app.listen(port)] throws when
    the port is no port number. *)
Definition bootstrap (env : gmap string string) : Startup :=
  match config_errors env with
  | [] =>
      let port := default (Integer 3000) (env !! "PORT" ≫= Number) in
      if valid_port port then Listening port (env !! "FRONTEND_URL")
      else ListenError port
  | errors => ConfigError errors
  end.

End config.

(** The environment of the README, and a conversion for the witnesses: the
    decimal numerals without sign, fraction or exponent. *)
Definition readme_env : gmap string string :=
  {[ "POSTGRES_HOST" := "localhost"; "POSTGRES_PORT" := "5432";
     "POSTGRES_USER" := "postgres"; "POSTGRES_PASSWORD" := "postgres";
     "POSTGRES_DB" := "audiophile"; "PORT" := "3000";
     "FRONTEND_URL" := "http://localhost:5173" ]}.

Fixpoint digits (acc : N) (v : string) : option N :=
  match v with
  | EmptyString => Some acc
  | String c v =>
      let d := Ascii.N_of_ascii c in
      if ((48 <=? d) && (d <=? 57))%N then digits (10 * acc + (d - 48))%N v
      else None
  end.

Definition decimal (v : string) : option number :=
  match v with
  | EmptyString => None
  | _ => (fun n => Integer (Z.of_N n)) <$> digits 0%N v
  end.

(** The constraints class-validator reports on a declared property: none on
    a string within bounds, the one bound a string misses, and all three on a
    value that is no string (an absent one included). *)
Definition failed_constraints (min max : nat) (v : option json) : list string :=
  match v with
  | Some (JString s) =>
      if (String.length s <? min)%nat then ["minLength"]
      else if (max <? String.length s)%nat then ["maxLength"]
      else []
  | _ => ["isString"; "minLength"; "maxLength"]
  end.


(** * Validation *)

Section validation.
Context (m : Metatype) (body : gmap string json).

Lemma declared_fields : declared m = ["title"; "description"].
Proof. by destruct m. Qed.

Lemma whitelist_errors_elem k v :
  body !! k = Some v → k ∉ declared m →
  ValidationError.Build k ["whitelistValidation"] ∈ whitelist_errors m body.
Proof.
  intros Hk Hn. apply list_elem_of_omap. exists (k, v). split.
  - by apply elem_of_map_to_list.
  - simpl. by rewrite bool_decide_eq_false_2.
Qed.

Lemma whitelist_errors_nil :
  whitelist_errors m body = [] ↔ ∀ k, is_Some (body !! k) → k ∈ declared m.
Proof.
  split.
  - intros Hnil k [v Hv]. destruct (decide (k ∈ declared m)) as [|Hn]; [done|].
    pose proof (whitelist_errors_elem k v Hv Hn) as Hin.
    rewrite Hnil in Hin. by apply elem_of_nil in Hin.
  - intros Hall. destruct (whitelist_errors m body) as [|e es] eqn:E; [done|].
    assert (e ∈ whitelist_errors m body) as Hin by (rewrite E; left).
    apply list_elem_of_omap in Hin as ([k v] & Hkv & Hf). simpl in Hf.
    apply elem_of_map_to_list in Hkv.
    rewrite bool_decide_eq_true_2 in Hf; [done|]. apply Hall. by exists v.
Qed.

Lemma property_errors_property decl e :
  property_errors body decl = Some e → ValidationError.property e = decl.1.
Proof.
  unfold property_errors. destruct (filter _ _); [done|].
  by intros [= <-].
Qed.

Lemma property_errors_none name min max :
  property_errors body (name, [IsString; MinLength min; MaxLength max]) = None
  ↔ within min max (body !! name).
Proof.
  unfold property_errors, within. simpl.
  destruct (body !! name) as [[| | |s| |]|] eqn:E;
    try (split; [done | by intros (? & [=] & _)]).
  rewrite !filter_cons, filter_nil. simpl.
  destruct (Nat.leb_spec min (String.length s)) as [Hmin|Hmin],
           (Nat.leb_spec (String.length s) max) as [Hmax|Hmax]; simpl;
    (split; [intros Hf; first [done | exists s; split; [done|lia]]
            | intros (s' & [= <-] & ?); first [done | lia]]).
Qed.

Lemma validate_nil : validate m body = [] ↔ valid_body body.
Proof.
  unfold validate, valid_body.
  rewrite app_nil, whitelist_errors_nil, declared_fields.
  rewrite <- !property_errors_none.
  destruct m; simpl; unfold UpdateProductDto.metadata; simpl;
    destruct (property_errors body ("title", _)),
             (property_errors body ("description", _)); simpl;
    intuition congruence.
Qed.

(** A declared property that is not within its bounds is reported. *)
Lemma validate_reports name min max :
  (name, [IsString; MinLength min; MaxLength max]) ∈ metadata_of m →
  ¬ within min max (body !! name) →
  ∃ e, e ∈ validate m body ∧ ValidationError.property e = name.
Proof.
  intros Hdecl Hout. rewrite <- property_errors_none in Hout.
  destruct (property_errors body (name, _)) as [e|] eqn:E; [|done].
  exists e. split; [|by apply property_errors_property in E].
  apply elem_of_app. right. apply list_elem_of_omap. eauto.
Qed.

Lemma ValidationPipe_accepts s :
  validate m body = [] →
  ValidationPipe m body s = (Return (plainToInstance body), s).
Proof. unfold ValidationPipe. by intros ->. Qed.

Lemma ValidationPipe_rejects s :
  validate m body ≠ [] →
  ValidationPipe m body s = (Throw (BadRequest (validate m body)), s).
Proof. unfold ValidationPipe. by destruct (validate m body). Qed.

End validation.

(** [UpdateProductDto] validates exactly as [CreateProductDto] does. *)
Lemma validate_inherited body :
  validate UpdateProductDtoClass body = validate CreateProductDtoClass body.
Proof. reflexivity. Qed.

(** * The service on a given table *)

(** Opens a route down to the service call it awaits. *)
Ltac route :=
  cbn [ProductsController.handle];
  unfold ProductsController.getProducts, ProductsController.getProduct,
    ProductsController.createProduct, ProductsController.updateProduct,
    ProductsController.deleteProduct, await.

Lemma miss_int4 (id : Z) : int4 id → miss id = NotFound.
Proof. simpl. by destruct (int4 id). Qed.

Lemma miss_NotFound (n : number) :
  miss n = NotFound → ∃ id : Z, n = Integer id ∧ int4 id.
Proof.
  destruct n as [id|]; simpl; [|done].
  destruct (int4 id) eqn:E; [|done]. intros _. exists id. by rewrite E.
Qed.

Lemma miss_BadRequest (n : number) errors : miss n ≠ BadRequest errors.
Proof. destruct n as [id|]; simpl; [by destruct (int4 id) | done]. Qed.

Lemma row_at_Some (n : number) (s : Db) (r : Row) :
  row_at n s = Some r → ∃ id : Z, n = Integer id ∧ rows s !! id = Some r.
Proof. destruct n as [id|]; [|done]. intros H. by exists id. Qed.

Lemma select_by_id_miss (n : number) (s : Db) :
  row_at n s = None →
  Repository.select_by_id n s
    = match miss n with
      | NotFound => Return None
      | e => Throw e
      end.
Proof.
  destruct n as [id|]; simpl; [|done]. intros ->. by destruct (int4 id).
Qed.

(** Splits on the row a path id addresses; where there is one, the id is
    an integer, named as the id was. *)
Tactic Notation "find_row" ident(id) constr(s) ident(r) ident(E) :=
  destruct (row_at id s) as [r|] eqn:E;
  [ let z := fresh "z" in
    apply row_at_Some in E as (z & -> & E); rename z into id
  | ].

Section service_miss.
Import ProductsService.
Context (s : Db) (id : number).

Lemma getProduct_absent :
  row_at id s = None →
  getProduct id s = (Throw (miss id), record_access (AFindOne id) s).
Proof.
  intros H. unfold getProduct, await, Repository.findOne.
  rewrite select_by_id_miss by done.
  destruct id as [z|]; simpl; [by destruct (int4 z) | done].
Qed.

Lemma updateProduct_absent dto :
  row_at id s = None →
  updateProduct id dto s = (Throw (miss id), record_access (APreload id) s).
Proof.
  intros H. unfold updateProduct, await, Repository.preload.
  rewrite select_by_id_miss by done.
  destruct id as [z|]; simpl; [by destruct (int4 z) | done].
Qed.

Lemma deleteProduct_absent :
  row_at id s = None →
  deleteProduct id s = (Throw (miss id), record_access (AFindOne id) s).
Proof. intros H. unfold deleteProduct, await. by rewrite getProduct_absent. Qed.

End service_miss.

Section service.
Import ProductsService.
Context (s : Db) (id : Z).

Lemma getProduct_present r :
  rows s !! id = Some r →
  getProduct id s =
    (Return (Repository.hydrate id r), record_access (AFindOne id) s).
Proof.
  intros H. unfold getProduct, await, Repository.findOne. simpl. by rewrite H.
Qed.

Lemma updateProduct_present r dto :
  rows s !! id = Some r →
  ∃ s', updateProduct id dto s =
          (Return (Repository.hydrate id (updated_row (clock s) r dto)), s') ∧
        rows s' = <[id := updated_row (clock s) r dto]> (rows s) ∧
        products_id_seq s' = products_id_seq s ∧
        clock s' = clock s ∧
        log s' = (log s ++ [APreload id; ASave])%list.
Proof.
  intros H. unfold updateProduct, await, Repository.preload. simpl.
  rewrite H. simpl. unfold Repository.save. simpl. rewrite H.
  unfold Repository.update_row, updated_row, Repository.changed,
    Repository.assign.
  destruct r as [rt rd rc ru], dto as [[t|] [d|]]; simpl;
    repeat case_decide; simplify_eq/=;
    try (exfalso; intuition congruence);
    (eexists; split; [reflexivity|]; simpl;
     rewrite <- ?(assoc_L app); simpl;
     try (rewrite insert_id by done); done).
Qed.

(** What [updateProduct] does to the row: a field the DTO defines is
    overwritten, a field it leaves undefined keeps its value, created_at is
    kept, and updated_at never moves back while the clock has not. *)
Lemma updateProduct_merges r dto :
  rows s !! id = Some r → row_updated_at r ≤ clock s →
  ∃ p s' r',
    updateProduct id dto s = (Return p, s') ∧ rows s' !! id = Some r' ∧
    row_title r' = default (row_title r) (CreateProductDto.title dto) ∧
    row_description r'
      = default (row_description r) (CreateProductDto.description dto) ∧
    row_created_at r' = row_created_at r ∧
    row_updated_at r ≤ row_updated_at r'.
Proof.
  intros H Hclock.
  destruct (updateProduct_present r dto H) as (s' & Hup & Hrows & _).
  eexists _, s', _. split; [exact Hup|].
  split; [rewrite Hrows; apply lookup_insert_eq|].
  unfold updated_row. case_decide as Hsame; simpl; [|repeat split; lia].
  destruct Hsame as [-> ->]. repeat split; lia.
Qed.

Lemma deleteProduct_present r :
  rows s !! id = Some r →
  deleteProduct id s =
    (Return (Product.Build None (Some (row_title r)) (Some (row_description r))
                           (Some (row_created_at r)) (Some (row_updated_at r))),
     set_rows (delete id)
              (record_access (ARemove id) (record_access (AFindOne id) s))).
Proof.
  intros H. unfold deleteProduct, await. by rewrite (getProduct_present r).
Qed.

Lemma createProduct_fresh t d :
  rows s !! products_id_seq s = None →
  createProduct (CreateProductDto.Build (Some t) (Some d)) s =
    (Return (Repository.hydrate (products_id_seq s) (created_row (clock s) t d)),
     set_rows (insert (products_id_seq s) (created_row (clock s) t d))
              (advance_seq (record_access ASave s))).
Proof.
  intros H. unfold createProduct, Repository.save, Repository.insert_row.
  simpl. by rewrite H.
Qed.

End service.

(** An accepted body becomes a DTO with both fields defined. *)
Lemma plainToInstance_valid body :
  valid_body body →
  ∃ t d, plainToInstance body = CreateProductDto.Build (Some t) (Some d) ∧
         body !! "title" = Some (JString t) ∧
         body !! "description" = Some (JString d) ∧
         (6 ≤ String.length t ≤ 32)%nat ∧ (32 ≤ String.length d ≤ 1024)%nat.
Proof.
  intros ((t & Ht & ?) & (d & Hd & ?) & _). exists t, d.
  unfold plainToInstance. by rewrite Ht, Hd.
Qed.

(** [save] reads the table, the sequence and the clock, never the log. *)
Lemma save_same_storage e s1 s2 :
  rows s1 = rows s2 → products_id_seq s1 = products_id_seq s2 →
  clock s1 = clock s2 →
  (Repository.save e s1).1 = (Repository.save e s2).1 ∧
  rows (Repository.save e s1).2 = rows (Repository.save e s2).2 ∧
  products_id_seq (Repository.save e s1).2
    = products_id_seq (Repository.save e s2).2 ∧
  clock (Repository.save e s1).2 = clock (Repository.save e s2).2.
Proof.
  destruct s1 as [rs1 q1 c1 l1], s2 as [rs2 q2 c2 l2]. simpl.
  intros -> -> ->.
  unfold Repository.save, Repository.insert_row, Repository.update_row. simpl.
  destruct e as [[i|] [t|] [d|] cr up]; simpl;
    repeat (case_match; simpl; simplify_eq/=); done.
Qed.

Example one_speaker_rows : rows one_speaker = {[ 1 := speaker_row ]}.
Proof. by vm_compute. Qed.

Example speaker_body_valid : validate CreateProductDtoClass speaker_body = [].
Proof. by vm_compute. Qed.

(** The scenario of the specification: the product is created with id 1,
    updated with a full body, deleted, and then no longer found. *)
Example scenario_create :
  (serve 10 (POST_products speaker_body) empty_db).1
    = Return (OneProduct (Repository.hydrate 1 speaker_row)).
Proof. by vm_compute. Qed.

Example scenario_update :
  (serve 20 (PUT_product 1 (<["title" := JString "Speaker B"]> speaker_body))
         one_speaker).1
    = Return (OneProduct
        (Product.Build (Some 1) (Some "Speaker B")
           (Some "A two-way bookshelf speaker, sold in pairs.")
           (Some 10) (Some 20))).
Proof. by vm_compute. Qed.

Example scenario_delete_then_get :
  (serve 40 (GET_product 1) (serve 30 (DELETE_product 1) one_speaker).2).1
    = Throw NotFound.
Proof. by vm_compute. Qed.

Example scenario_bad_ids :
  (serve 20 (GET_product NotInteger) one_speaker).1
    = Throw InternalServerError ∧
  (serve 20 (DELETE_product (-2147483649)) one_speaker).1
    = Throw InternalServerError ∧
  (serve 20 (GET_product (-2147483648)) one_speaker).1 = Throw NotFound.
Proof. repeat split; by vm_compute. Qed.

Example scenario_list :
  (serve 20 GET_products one_speaker).1
    = Return (ProductList [Repository.hydrate 1 speaker_row]).
Proof. by vm_compute. Qed.

(** * Absent records *)




(** C10: when the id has no row, the failed Update or Delete leaves the
    table and the sequence as they were, through the service and through the
    routes (the PUT route for every body, accepted or not).  The failure is
    [miss id]: NotFound for every id the column can hold, and an internal
    error, that writes nothing either, for the others. *)
Theorem not_found_changes_nothing (s : Db) (id : Z) :
  rows s !! id = None →
  (int4 id → miss id = NotFound) ∧
  (∀ dto, (ProductsService.updateProduct id dto s).1 = Throw (miss id) ∧
          same_storage s (ProductsService.updateProduct id dto s).2) ∧
  ((ProductsService.deleteProduct id s).1 = Throw (miss id) ∧
   same_storage s (ProductsService.deleteProduct id s).2) ∧
  (∀ body, same_storage s (ProductsController.handle (PUT_product id body) s).2) ∧
  same_storage s (ProductsController.handle (DELETE_product id) s).2.
Proof.
  intros H. split; [apply miss_int4|]. repeat split.
  - by rewrite updateProduct_absent.
  - by rewrite updateProduct_absent.
  - by rewrite updateProduct_absent.
  - by rewrite deleteProduct_absent.
  - by rewrite deleteProduct_absent.
  - by rewrite deleteProduct_absent.
  - route.
    destruct (decide (validate UpdateProductDtoClass body = [])) as [Hv|Hv].
    + rewrite ValidationPipe_accepts by done. by rewrite updateProduct_absent.
    + by rewrite ValidationPipe_rejects.
  - route.
    destruct (decide (validate UpdateProductDtoClass body = [])) as [Hv|Hv].
    + rewrite ValidationPipe_accepts by done. by rewrite updateProduct_absent.
    + by rewrite ValidationPipe_rejects.
  - route.
    by rewrite deleteProduct_absent.
  - route.
    by rewrite deleteProduct_absent.
Qed.

Lemma not_found_changes_nothing_witness :
  rows one_speaker !! 2 = None ∧
  (int4 2 → miss 2 = NotFound) ∧
  (∀ dto, (ProductsService.updateProduct 2 dto one_speaker).1 = Throw NotFound ∧
          same_storage one_speaker
            (ProductsService.updateProduct 2 dto one_speaker).2) ∧
  ((ProductsService.deleteProduct 2 one_speaker).1 = Throw NotFound ∧
   same_storage one_speaker (ProductsService.deleteProduct 2 one_speaker).2) ∧
  (∀ body, same_storage one_speaker
             (ProductsController.handle (PUT_product 2 body) one_speaker).2) ∧
  same_storage one_speaker
    (ProductsController.handle (DELETE_product 2) one_speaker).2.
Proof.
  split; [reflexivity
         | apply (not_found_changes_nothing one_speaker 2); reflexivity].
Defined.

(** C7: updateProduct and deleteProduct throw NotFound exactly when
    getProduct does.  deleteProduct calls getProduct itself; updateProduct
    checks through [preload], and agrees, in its outcome and in what it
    leaves in storage, with the update that checks through getProduct. *)
Theorem not_found_condition_shared (s : Db) (id : Z) (dto : UpdateProductDto.t) :
  ((ProductsService.updateProduct id dto s).1 = Throw NotFound
   ↔ (ProductsService.getProduct id s).1 = Throw NotFound) ∧
  ((ProductsService.deleteProduct id s).1 = Throw NotFound
   ↔ (ProductsService.getProduct id s).1 = Throw NotFound) ∧
  (ProductsService.updateProduct id dto s).1
    = (updateProduct_through_getProduct id dto s).1 ∧
  same_storage (updateProduct_through_getProduct id dto s).2
               (ProductsService.updateProduct id dto s).2.
Proof.
  destruct (rows s !! id) as [r|] eqn:H.
  - destruct (updateProduct_present s id r dto H) as (s' & Hup & _).
    split; [|split].
    + rewrite Hup, (getProduct_present s id r H). done.
    + rewrite (deleteProduct_present s id r H), (getProduct_present s id r H).
      done.
    + unfold updateProduct_through_getProduct, ProductsService.updateProduct,
        await.
      rewrite (getProduct_present s id r H).
      unfold Repository.preload. simpl. rewrite H. simpl.
      match goal with
      | |- (Repository.save ?e ?s1).1 = (Repository.save ?e ?s2).1 ∧ _ =>
          destruct (save_same_storage e s1 s2) as (? & ? & ? & ?); try done
      end.
  - rewrite updateProduct_absent, deleteProduct_absent by done.
    unfold updateProduct_through_getProduct, await.
    rewrite getProduct_absent by done. done.
Qed.

(** * Rejected bodies *)

(** C4: a create body whose title is a string of fewer than 6 or more than
    32 characters is answered by a BadRequest that reports the title, and
    the database is exactly as before: no row, no access. *)
Theorem short_or_long_title_rejected
    (s : Db) (body : gmap string json) (title : string) :
  body !! "title" = Some (JString title) →
  (String.length title < 6 ∨ 32 < String.length title)%nat →
  ∃ errors e,
    ProductsController.handle (POST_products body) s
      = (Throw (BadRequest errors), s) ∧
    e ∈ errors ∧ ValidationError.property e = "title".
Proof.
  intros Ht Hlen.
  destruct (validate_reports CreateProductDtoClass body "title" 6 32)
    as (e & He & Hp).
  { simpl. left. }
  { intros (t' & Ht' & ?). rewrite Ht in Ht'. simplify_eq. lia. }
  exists (validate CreateProductDtoClass body), e. split; [|done].
  route.
  rewrite ValidationPipe_rejects; [done|].
  intros Hnil. rewrite Hnil in He. by apply elem_of_nil in He.
Qed.

Lemma short_or_long_title_rejected_witness :
  let body : gmap string json :=
    {[ "title" := JString "abc";
       "description" := JString "A two-way bookshelf speaker, sold in pairs." ]} in
  body !! "title" = Some (JString "abc") ∧
  (String.length "abc" < 6 ∨ 32 < String.length "abc")%nat ∧
  ∃ errors e,
    ProductsController.handle (POST_products body) one_speaker
      = (Throw (BadRequest errors), one_speaker) ∧
    e ∈ errors ∧ ValidationError.property e = "title".
Proof.
  intros body. split; [reflexivity|]. split; [left; simpl; lia|].
  apply (short_or_long_title_rejected one_speaker body "abc");
    [reflexivity | left; simpl; lia].
Defined.

(** C9: a create or update body with a field other than title and
    description is answered by a BadRequest that reports that field, and the
    database is exactly as before: nothing is stored, nothing is accessed. *)
Theorem unknown_field_rejected
    (s : Db) (body : gmap string json) (field : string) (v : json) :
  body !! field = Some v →
  field ≠ "title" → field ≠ "description" →
  (∃ errors,
     ProductsController.handle (POST_products body) s
       = (Throw (BadRequest errors), s) ∧
     ValidationError.Build field ["whitelistValidation"] ∈ errors) ∧
  (∀ id, ∃ errors,
     ProductsController.handle (PUT_product id body) s
       = (Throw (BadRequest errors), s) ∧
     ValidationError.Build field ["whitelistValidation"] ∈ errors).
Proof.
  intros Hf Ht Hd.
  assert (∀ m, ValidationError.Build field ["whitelistValidation"]
               ∈ validate m body) as Hin.
  { intros m. apply elem_of_app. left. apply (whitelist_errors_elem m body field v Hf).
    rewrite declared_fields, !elem_of_cons, elem_of_nil. intuition. }
  assert (∀ m, validate m body ≠ []) as Hne.
  { intros m Hnil. specialize (Hin m). rewrite Hnil in Hin.
    by apply elem_of_nil in Hin. }
  split; [|intros id]; eexists; (split; [|apply Hin]); simpl.
  - route.
    by rewrite ValidationPipe_rejects.
  - route.
    by rewrite ValidationPipe_rejects.
Qed.

Lemma unknown_field_rejected_witness :
  let body : gmap string json := <["price" := JNumber 250]> speaker_body in
  body !! "price" = Some (JNumber 250) ∧
  "price" ≠ "title" ∧ "price" ≠ "description" ∧
  (∃ errors,
     ProductsController.handle (POST_products body) one_speaker
       = (Throw (BadRequest errors), one_speaker) ∧
     ValidationError.Build "price" ["whitelistValidation"] ∈ errors) ∧
  (∀ id, ∃ errors,
     ProductsController.handle (PUT_product id body) one_speaker
       = (Throw (BadRequest errors), one_speaker) ∧
     ValidationError.Build "price" ["whitelistValidation"] ∈ errors).
Proof.
  intros body. split; [reflexivity|]. split; [discriminate|].
  split; [discriminate|].
  apply (unknown_field_rejected one_speaker body "price" (JNumber 250));
    [reflexivity | discriminate | discriminate].
Defined.

(** * Update inputs *)

(** A body that omits the title: refused, although the description is
    within its bounds and the product exists. *)
Lemma update_without_title_counterexample :
  let body : gmap string json :=
    {[ "description" := JString "A three-way floorstanding speaker, in oak." ]} in
  rows one_speaker !! 1 = Some speaker_row ∧
  body !! "title" = None ∧
  within 32 1024 (body !! "description") ∧
  validate UpdateProductDtoClass body
    = [ValidationError.Build "title" ["isString"; "minLength"; "maxLength"]] ∧
  ProductsController.handle (PUT_product 1 body) one_speaker
    = (Throw (BadRequest
         [ValidationError.Build "title" ["isString"; "minLength"; "maxLength"]]),
       one_speaker).
Proof.
  intros body.
  split; [by vm_compute|]. split; [by vm_compute|]. split.
  { eexists. split; [by vm_compute|]. simpl. lia. }
  split; by vm_compute.
Qed.

(** C1, as the code has it: UpdateProductDto inherits the decorators of
    CreateProductDto, none of which is optional.  An update body without a
    title or without a description is answered by a BadRequest and the
    database is exactly as before; the constraints are those of a create
    body. *)
Theorem update_fields_required (s : Db) (id : Z) (body : gmap string json) :
  body !! "title" = None ∨ body !! "description" = None →
  validate UpdateProductDtoClass body = validate CreateProductDtoClass body ∧
  ∃ errors e,
    ProductsController.handle (PUT_product id body) s
      = (Throw (BadRequest errors), s) ∧
    e ∈ errors ∧
    body !! ValidationError.property e = None ∧
    "isString" ∈ ValidationError.constraints e.
Proof.
  intros Hmissing. split; [reflexivity|].
  assert (∃ name min max,
            (name, [IsString; MinLength min; MaxLength max])
              ∈ metadata_of UpdateProductDtoClass ∧ body !! name = None)
    as (name & min & max & Hdecl & Hnone).
  { destruct Hmissing; [exists "title", 6%nat, 32%nat
                       | exists "description", 32%nat, 1024%nat];
      (split; [simpl; unfold UpdateProductDto.metadata,
                 CreateProductDto.metadata;
               rewrite !elem_of_cons; auto | done]). }
  assert (property_errors body (name, [IsString; MinLength min; MaxLength max])
          = Some (ValidationError.Build name ["isString"; "minLength"; "maxLength"]))
    as Herr.
  { unfold property_errors. simpl. by rewrite Hnone. }
  set (e := ValidationError.Build name ["isString"; "minLength"; "maxLength"]).
  assert (e ∈ validate UpdateProductDtoClass body) as Hin.
  { apply elem_of_app. right. apply list_elem_of_omap. eauto. }
  exists (validate UpdateProductDtoClass body), e. repeat split.
  - route.
    rewrite ValidationPipe_rejects; [done|].
    intros Hnil. rewrite Hnil in Hin. by apply elem_of_nil in Hin.
  - done.
  - done.
  - simpl. left.
Qed.

Lemma update_fields_required_witness :
  let body : gmap string json :=
    {[ "description" := JString "A three-way floorstanding speaker, in oak." ]} in
  (body !! "title" = None ∨ body !! "description" = None) ∧
  validate UpdateProductDtoClass body = validate CreateProductDtoClass body ∧
  ∃ errors e,
    ProductsController.handle (PUT_product 1 body) one_speaker
      = (Throw (BadRequest errors), one_speaker) ∧
    e ∈ errors ∧
    body !! ValidationError.property e = None ∧
    "isString" ∈ ValidationError.constraints e.
Proof.
  intros body. split; [left; reflexivity|].
  apply (update_fields_required one_speaker 1 body). left. reflexivity.
Defined.

(** The empty update of an existing product does not succeed. *)
Lemma empty_update_counterexample :
  rows one_speaker !! 1 = Some speaker_row ∧
  (serve 20 (PUT_product 1 ∅) one_speaker).1
    = Throw (BadRequest
        [ValidationError.Build "title" ["isString"; "minLength"; "maxLength"];
         ValidationError.Build "description"
           ["isString"; "minLength"; "maxLength"]]) ∧
  ¬ ∃ p, (serve 20 (PUT_product 1 ∅) one_speaker).1 = Return p.
Proof.
  split; [by vm_compute|]. split; [by vm_compute|].
  intros [p Hp]. vm_compute in Hp. discriminate.
Qed.

(** C3, as the code has it: the empty update of a persisted product is
    answered by a BadRequest on both fields and the database is exactly as
    before, so the row keeps its title, description, created_at and
    updated_at.  Past the pipe, updateProduct with the empty DTO returns the
    product as stored and writes nothing: updated_at keeps its value. *)
Theorem empty_update_rejected (s : Db) (id : Z) (r : Row) :
  rows s !! id = Some r →
  (∃ errors,
     ProductsController.handle (PUT_product id ∅) s
       = (Throw (BadRequest errors), s) ∧ errors ≠ []) ∧
  ∃ s',
    ProductsService.updateProduct id (CreateProductDto.Build None None) s
      = (Return (Repository.hydrate id r), s') ∧
    rows s' = rows s ∧ rows s' !! id = Some r.
Proof.
  intros H. split.
  - exists (validate UpdateProductDtoClass ∅). split; [|by vm_compute]. route.
    rewrite ValidationPipe_rejects; [reflexivity | by vm_compute].
  - destruct (updateProduct_present s id r (CreateProductDto.Build None None) H)
      as (s' & Hup & Hrows & _).
    assert (updated_row (clock s) r (CreateProductDto.Build None None) = r) as Hr.
    { unfold updated_row. simpl. by rewrite decide_True. }
    rewrite Hr in Hup, Hrows. rewrite insert_id in Hrows by done.
    exists s'. by rewrite Hrows.
Qed.

Lemma empty_update_rejected_witness :
  rows one_speaker !! 1 = Some speaker_row ∧
  (∃ errors,
     ProductsController.handle (PUT_product 1 ∅) one_speaker
       = (Throw (BadRequest errors), one_speaker) ∧ errors ≠ []) ∧
  ∃ s',
    ProductsService.updateProduct 1 (CreateProductDto.Build None None) one_speaker
      = (Return (Repository.hydrate 1 speaker_row), s') ∧
    rows s' = rows one_speaker ∧ rows s' !! 1 = Some speaker_row.
Proof.
  split; [reflexivity
         | apply (empty_update_rejected one_speaker 1 speaker_row); reflexivity].
Defined.

(** * Delete *)

(** Get answers with the id, Delete without. *)
Lemma delete_returns_id_counterexample :
  (ProductsService.getProduct 1 one_speaker).1
    = Return (Repository.hydrate 1 speaker_row) ∧
  ∃ p, (ProductsService.deleteProduct 1 one_speaker).1 = Return p ∧
       Product.id p = None ∧
       Product.id (Repository.hydrate 1 speaker_row) = Some 1 ∧
       p ≠ Repository.hydrate 1 speaker_row.
Proof.
  split; [by vm_compute|]. eexists. split; [by vm_compute|].
  repeat split. by intros [=].
Qed.

(** C6, as the code has it: for an id with a row, deleteProduct is
    getProduct followed by [remove] of the product it returned; it returns
    that product's title, description, created_at and updated_at with the id
    cleared, and afterwards the row is gone and every other row is as it
    was. *)
Theorem delete_returns_last_values (s : Db) (id : Z) (r : Row) :
  rows s !! id = Some r →
  ∃ p s1 deleted s',
    ProductsService.getProduct id s = (Return p, s1) ∧
    Repository.remove p s1 = (Return deleted, s') ∧
    ProductsService.deleteProduct id s = (Return deleted, s') ∧
    p = Repository.hydrate id r ∧
    Product.id deleted = None ∧
    Product.title deleted = Some (row_title r) ∧
    Product.description deleted = Some (row_description r) ∧
    Product.created_at deleted = Some (row_created_at r) ∧
    Product.updated_at deleted = Some (row_updated_at r) ∧
    rows s' = delete id (rows s) ∧
    rows s' !! id = None ∧
    products_id_seq s' = products_id_seq s.
Proof.
  intros H. eexists _, _, _, _.
  split; [by apply getProduct_present|].
  split; [reflexivity|].
  split; [by apply deleteProduct_present|].
  simpl. repeat split. apply lookup_delete_eq.
Qed.

Lemma delete_returns_last_values_witness :
  rows one_speaker !! 1 = Some speaker_row ∧
  ∃ p s1 deleted s',
    ProductsService.getProduct 1 one_speaker = (Return p, s1) ∧
    Repository.remove p s1 = (Return deleted, s') ∧
    ProductsService.deleteProduct 1 one_speaker = (Return deleted, s') ∧
    p = Repository.hydrate 1 speaker_row ∧
    Product.id deleted = None ∧
    Product.title deleted = Some (row_title speaker_row) ∧
    Product.description deleted = Some (row_description speaker_row) ∧
    Product.created_at deleted = Some (row_created_at speaker_row) ∧
    Product.updated_at deleted = Some (row_updated_at speaker_row) ∧
    rows s' = delete 1 (rows one_speaker) ∧
    rows s' !! 1 = None ∧
    products_id_seq s' = products_id_seq one_speaker.
Proof.
  split; [reflexivity
         | apply (delete_returns_last_values one_speaker 1 speaker_row);
           reflexivity].
Defined.

(** * What every persisted row satisfies *)

Lemma db_ok_empty : db_ok empty_db.
Proof.
  split; [intros id r H | intros id [r H]]; simpl in H;
    by rewrite lookup_empty in H.
Qed.

Lemma db_ok_same s s' :
  rows s' = rows s → products_id_seq s' = products_id_seq s →
  clock s ≤ clock s' → db_ok s → db_ok s'.
Proof.
  intros Hr Hq Hc [Hrows Hseq]. split.
  - intros id r. rewrite Hr. intros [? ?]%Hrows. split; [done|lia].
  - intros id. rewrite Hr, Hq. apply Hseq.
Qed.

Lemma db_ok_fresh s : db_ok s → rows s !! products_id_seq s = None.
Proof.
  intros [_ Hseq]. destruct (rows s !! products_id_seq s) eqn:E; [|done].
  assert (products_id_seq s < products_id_seq s) by (apply Hseq; by rewrite E).
  lia.
Qed.

Lemma db_ok_create s t d :
  db_ok s →
  (6 ≤ String.length t ≤ 32)%nat → (32 ≤ String.length d ≤ 1024)%nat →
  db_ok (set_rows (insert (products_id_seq s) (created_row (clock s) t d))
                  (advance_seq (record_access ASave s))).
Proof.
  intros [Hrows Hseq] Ht Hd. split; simpl.
  - intros id r. rewrite lookup_insert. case_decide.
    + intros [= <-]. unfold row_ok. simpl. repeat split; lia.
    + apply Hrows.
  - intros id. rewrite lookup_insert. case_decide; [lia|].
    intros ?%Hseq. lia.
Qed.

Lemma row_ok_updated now r t d :
  row_ok r → row_updated_at r ≤ now →
  (6 ≤ String.length t ≤ 32)%nat → (32 ≤ String.length d ≤ 1024)%nat →
  let r' := updated_row now r (CreateProductDto.Build (Some t) (Some d)) in
  row_ok r' ∧ row_updated_at r' ≤ now ∧
  row_created_at r' = row_created_at r ∧ row_updated_at r ≤ row_updated_at r'.
Proof.
  intros (? & ? & ?) ? ? ?. unfold updated_row, row_ok. simpl.
  case_decide; simpl; repeat split; lia.
Qed.

Lemma handle_preserves_db_ok (r : Request) (s : Db) :
  db_ok s → db_ok (ProductsController.handle r s).2.
Proof.
  intros Hok. destruct r as [|id|body|id body|id]; simpl.
  - by apply (db_ok_same s).
  - route.
    find_row id s r E.
    + rewrite (getProduct_present s id r E). by apply (db_ok_same s).
    + rewrite (getProduct_absent s id E). by apply (db_ok_same s).
  - route.
    destruct (decide (validate CreateProductDtoClass body = [])) as [Hv|Hv].
    + rewrite ValidationPipe_accepts by done.
      apply validate_nil, plainToInstance_valid in Hv
        as (t & d & -> & _ & _ & Ht & Hd).
      rewrite createProduct_fresh by by apply db_ok_fresh.
      by apply db_ok_create.
    + by rewrite ValidationPipe_rejects.
  - route.
    destruct (decide (validate UpdateProductDtoClass body = [])) as [Hv|Hv].
    + rewrite ValidationPipe_accepts by done.
      apply validate_nil, plainToInstance_valid in Hv
        as (t & d & -> & _ & _ & Ht & Hd).
      find_row id s r E.
      * destruct (updateProduct_present s id r
                    (CreateProductDto.Build (Some t) (Some d)) E)
          as (s' & -> & Hrows & Hseq & Hclock & _). simpl.
        destruct Hok as [Hr Hq].
        destruct (Hr id r E) as [Hrow Hup].
        destruct (row_ok_updated (clock s) r t d Hrow Hup Ht Hd)
          as (? & ? & _).
        split.
        -- intros id' r'. rewrite Hrows, Hclock, lookup_insert.
           case_decide; [by intros [= <-] | apply Hr].
        -- intros id'. rewrite Hrows, Hseq, lookup_insert.
           case_decide; [subst; intros _; apply Hq; by rewrite E | apply Hq].
      * rewrite updateProduct_absent by done. by apply (db_ok_same s).
    + by rewrite ValidationPipe_rejects.
  - route.
    find_row id s r E.
    + rewrite (deleteProduct_present s id r E). simpl.
      destruct Hok as [Hr Hq]. split; simpl.
      * intros id' r'. rewrite lookup_delete. case_decide; [done | apply Hr].
      * intros id'. rewrite lookup_delete.
        case_decide; [by intros [? [=]] | apply Hq].
    + rewrite deleteProduct_absent by done. by apply (db_ok_same s).
Qed.

Lemma serve_preserves_db_ok (t : Z) (r : Request) (s : Db) :
  db_ok s → clock s ≤ t → db_ok (serve t r s).2.
Proof.
  intros Hok Hclock. apply handle_preserves_db_ok.
  by apply (db_ok_same s).
Qed.

Lemma reachable_db_ok (s : Db) : reachable s → db_ok s.
Proof.
  induction 1 as [|t r s _ IH Hclock];
    [apply db_ok_empty | by apply serve_preserves_db_ok].
Qed.

Lemma reachable_one_speaker : reachable one_speaker.
Proof. apply (reachable_serve 10 _ empty_db reachable_empty). simpl. lia. Defined.

(** C8: from the empty table, whatever requests are served (list, get,
    create, update, delete), every row of the table has a title of 6 to 32
    characters, a description of 32 to 1024 characters and an updated_at
    that is not before its created_at. *)
Theorem persisted_rows_within_bounds (s : Db) (id : Z) (r : Row) :
  reachable s → rows s !! id = Some r →
  (6 ≤ String.length (row_title r) ≤ 32)%nat ∧
  (32 ≤ String.length (row_description r) ≤ 1024)%nat ∧
  row_created_at r ≤ row_updated_at r.
Proof. intros [Hrows _]%reachable_db_ok H. by destruct (Hrows id r H). Qed.

Lemma persisted_rows_within_bounds_witness :
  reachable one_speaker ∧ rows one_speaker !! 1 = Some speaker_row ∧
  (6 ≤ String.length (row_title speaker_row) ≤ 32)%nat ∧
  (32 ≤ String.length (row_description speaker_row) ≤ 1024)%nat ∧
  row_created_at speaker_row ≤ row_updated_at speaker_row.
Proof.
  split; [exact reachable_one_speaker|]. split; [reflexivity|].
  apply (persisted_rows_within_bounds one_speaker 1 speaker_row);
    [exact reachable_one_speaker | reflexivity].
Defined.

(** * Create, then Get *)



(** * What one request does to the table *)

Lemma createProduct_taken s t d r :
  rows s !! products_id_seq s = Some r →
  ProductsService.createProduct (CreateProductDto.Build (Some t) (Some d)) s =
    (Throw InternalServerError, advance_seq (record_access ASave s)).
Proof.
  intros H.
  unfold ProductsService.createProduct, Repository.save, Repository.insert_row.
  simpl. by rewrite H.
Qed.

(** The table after a request is the table before it, or differs from it in
    the one row a successful create, update or delete addresses. *)
Lemma handle_effect (r : Request) (s : Db) :
  clock (ProductsController.handle r s).2 = clock s ∧
  products_id_seq s ≤ products_id_seq (ProductsController.handle r s).2 ∧
  (rows (ProductsController.handle r s).2 = rows s ∨
   (∃ body t d,
      r = POST_products body ∧ valid_body body ∧
      plainToInstance body = CreateProductDto.Build (Some t) (Some d) ∧
      rows s !! products_id_seq s = None ∧
      rows (ProductsController.handle r s).2
        = <[products_id_seq s := created_row (clock s) t d]> (rows s)) ∨
   (∃ (id : Z) body r0,
      r = PUT_product id body ∧ valid_body body ∧ rows s !! id = Some r0 ∧
      rows (ProductsController.handle r s).2
        = <[id := updated_row (clock s) r0 (plainToInstance body)]> (rows s)) ∨
   (∃ (id : Z) r0,
      r = DELETE_product id ∧ rows s !! id = Some r0 ∧
      rows (ProductsController.handle r s).2 = delete id (rows s))).
Proof.
  destruct r as [|id|body|id body|id].
  - simpl. split; [done|]. split; [lia|]. by left.
  - route. find_row id s r E.
    + rewrite (getProduct_present s id r E). simpl.
      split; [done|]. split; [lia|]. by left.
    + rewrite (getProduct_absent s id E). simpl.
      split; [done|]. split; [lia|]. by left.
  - route.
    destruct (decide (validate CreateProductDtoClass body = [])) as [Hv|Hv].
    + rewrite ValidationPipe_accepts by done.
      apply validate_nil in Hv.
      destruct (plainToInstance_valid body Hv) as (t & d & Hdto & _).
      rewrite Hdto.
      destruct (rows s !! products_id_seq s) as [r|] eqn:E.
      * rewrite (createProduct_taken s t d r E). simpl.
        split; [done|]. split; [lia|]. by left.
      * rewrite createProduct_fresh by done. simpl.
        split; [done|]. split; [lia|]. right. left. by exists body, t, d.
    + rewrite ValidationPipe_rejects by done. simpl.
      split; [done|]. split; [lia|]. by left.
  - route.
    destruct (decide (validate UpdateProductDtoClass body = [])) as [Hv|Hv].
    + rewrite ValidationPipe_accepts by done.
      apply validate_nil in Hv.
      find_row id s r E.
      * destruct (updateProduct_present s id r (plainToInstance body) E)
          as (s' & -> & Hrows & Hseq & Hclock & _). simpl.
        split; [done|]. split; [lia|]. right. right. left.
        by exists id, body, r.
      * rewrite updateProduct_absent by done. simpl.
        split; [done|]. split; [lia|]. by left.
    + rewrite ValidationPipe_rejects by done. simpl.
      split; [done|]. split; [lia|]. by left.
  - route. find_row id s r E.
    + rewrite (deleteProduct_present s id r E). simpl.
      split; [done|]. split; [lia|]. right. right. right. by exists id, r.
    + rewrite deleteProduct_absent by done. simpl.
      split; [done|]. split; [lia|]. by left.
Qed.

Lemma serves_to_reachable s s' : reachable s → serves_to s s' → reachable s'.
Proof.
  intros Hs. induction 1 as [|t r s1 _ IH Hclock];
    [done | by apply reachable_serve].
Qed.

Lemma serves_to_seq s s' :
  serves_to s s' → products_id_seq s ≤ products_id_seq s'.
Proof.
  induction 1 as [|t r s1 _ IH Hclock]; [lia|].
  destruct (handle_effect r (set_clock t s1)) as (_ & Hseq & _).
  unfold serve. simpl in Hseq. lia.
Qed.


Lemma updated_row_fields now r t d :
  row_title (updated_row now r (CreateProductDto.Build (Some t) (Some d))) = t ∧
  row_description (updated_row now r (CreateProductDto.Build (Some t) (Some d)))
    = d.
Proof.
  unfold updated_row. simpl. case_decide as H; [|done]. by destruct H as [-> ->].
Qed.

Lemma updated_row_dates now r dto :
  row_created_at (updated_row now r dto) = row_created_at r ∧
  (row_updated_at r ≤ now →
   row_updated_at r ≤ row_updated_at (updated_row now r dto)).
Proof. unfold updated_row. case_decide; simpl; split; (done || lia). Qed.

(** A valid update of a row that is there. *)
Lemma serve_update s t (id : Z) body ti d r0 :
  rows s !! id = Some r0 →
  validate UpdateProductDtoClass body = [] →
  body !! "title" = Some (JString ti) →
  body !! "description" = Some (JString d) →
  ∃ s',
    serve t (PUT_product id body) s =
      (Return (OneProduct
         (Repository.hydrate id
            (updated_row t r0 (CreateProductDto.Build (Some ti) (Some d))))),
       s') ∧
    rows s' = <[id := updated_row t r0
                        (CreateProductDto.Build (Some ti) (Some d))]> (rows s) ∧
    products_id_seq s' = products_id_seq s.
Proof.
  intros H Hv Ht Hd. unfold serve. route.
  rewrite ValidationPipe_accepts by done.
  unfold plainToInstance. rewrite Ht, Hd. simpl.
  destruct (updateProduct_present (set_clock t s) id r0
              (CreateProductDto.Build (Some ti) (Some d)) H)
    as (s' & -> & Hrows & Hseq & _).
  by exists s'.
Qed.

(** * Create and update, seen by the client *)





(** X3: a valid update of an existing product answers with the product
    under the same id and created_at, with the title and description of the
    body; updated_at is the clock reading when a stored value changed and
    the previous updated_at when none did.  A get of that id, whenever it is
    served next, answers with the same product. *)
Theorem update_then_get
    (s : Db) (t t' id : Z) (body : gmap string json) (ti d : string)
    (r0 : Row) :
  rows s !! id = Some r0 →
  validate UpdateProductDtoClass body = [] →
  body !! "title" = Some (JString ti) →
  body !! "description" = Some (JString d) →
  ∃ p s',
    serve t (PUT_product id body) s = (Return (OneProduct p), s') ∧
    p = Product.Build (Some id) (Some ti) (Some d) (Some (row_created_at r0))
          (Some (if decide (ti = row_title r0 ∧ d = row_description r0)
                 then row_updated_at r0 else t)) ∧
    (serve t' (GET_product id) s').1 = Return (OneProduct p).
Proof.
  intros H Hv Ht Hd.
  destruct (serve_update s t id body ti d r0 H Hv Ht Hd)
    as (s' & Hup & Hrows & _).
  eexists _, s'. split; [exact Hup|]. split.
  - unfold updated_row, Repository.hydrate. simpl.
    case_decide as Hsame; [|done]. by destruct Hsame as [-> ->].
  - unfold serve. route.
    erewrite getProduct_present; [reflexivity|].
    simpl. rewrite Hrows. apply lookup_insert_eq.
Qed.

Lemma update_then_get_witness :
  let body : gmap string json := <["title" := JString "Speaker B"]> speaker_body in
  rows one_speaker !! 1 = Some speaker_row ∧
  validate UpdateProductDtoClass body = [] ∧
  ∃ p s',
    serve 20 (PUT_product 1 body) one_speaker = (Return (OneProduct p), s') ∧
    p = Product.Build (Some 1) (Some "Speaker B")
          (Some "A two-way bookshelf speaker, sold in pairs.")
          (Some (row_created_at speaker_row))
          (Some (if decide ("Speaker B" = row_title speaker_row ∧
                            "A two-way bookshelf speaker, sold in pairs."
                              = row_description speaker_row)
                 then row_updated_at speaker_row else 20)) ∧
    (serve 30 (GET_product 1) s').1 = Return (OneProduct p).
Proof.
  intros body. split; [reflexivity|]. split; [reflexivity|].
  apply (update_then_get one_speaker 20 30 1 body "Speaker B"
           "A two-way bookshelf speaker, sold in pairs." speaker_row);
    reflexivity.
Defined.

(** X4: PUT is idempotent.  Serving the same valid update of an existing
    product a second time, at any clock reading, answers as the first time
    and leaves the table as the first left it: updated_at is not stamped
    again. *)
Theorem update_twice
    (s : Db) (t t' id : Z) (body : gmap string json) (r0 : Row) :
  rows s !! id = Some r0 →
  validate UpdateProductDtoClass body = [] →
  (serve t' (PUT_product id body) (serve t (PUT_product id body) s).2).1
    = (serve t (PUT_product id body) s).1 ∧
  rows (serve t' (PUT_product id body) (serve t (PUT_product id body) s).2).2
    = rows (serve t (PUT_product id body) s).2.
Proof.
  intros H Hv.
  destruct (plainToInstance_valid body (proj1 (validate_nil _ _) Hv))
    as (ti & d & _ & Ht & Hd & _).
  destruct (serve_update s t id body ti d r0 H Hv Ht Hd)
    as (s1 & -> & Hrows1 & _). cbn [fst snd].
  set (r1 := updated_row t r0 (CreateProductDto.Build (Some ti) (Some d))) in *.
  assert (rows s1 !! id = Some r1) as H1.
  { rewrite Hrows1. apply lookup_insert_eq. }
  destruct (serve_update s1 t' id body ti d r1 H1 Hv Ht Hd)
    as (s2 & -> & Hrows2 & _). cbn [fst snd].
  assert (updated_row t' r1 (CreateProductDto.Build (Some ti) (Some d)) = r1)
    as Hsame.
  { destruct (updated_row_fields t r0 ti d) as [Hti Hd'].
    unfold updated_row at 1. simpl. fold r1 in Hti, Hd'.
    by rewrite decide_True. }
  rewrite Hsame in Hrows2 |- *. split; [done|].
  rewrite Hrows2. by apply insert_id.
Qed.

Lemma update_twice_witness :
  let body : gmap string json := <["title" := JString "Speaker B"]> speaker_body in
  rows one_speaker !! 1 = Some speaker_row ∧
  validate UpdateProductDtoClass body = [] ∧
  (serve 30 (PUT_product 1 body) (serve 20 (PUT_product 1 body) one_speaker).2).1
    = (serve 20 (PUT_product 1 body) one_speaker).1 ∧
  rows (serve 30 (PUT_product 1 body)
          (serve 20 (PUT_product 1 body) one_speaker).2).2
    = rows (serve 20 (PUT_product 1 body) one_speaker).2.
Proof.
  intros body. split; [reflexivity|]. split; [reflexivity|].
  apply (update_twice one_speaker 20 30 1 body speaker_row); reflexivity.
Defined.

(** * What a request leaves alone *)

(** X5: a request changes no row but the one its path addresses: every row
    under another id is afterwards exactly as before, and a create or a
    list changes no existing row at all. *)
Theorem other_rows_untouched (s : Db) (r : Request) (k : Z) (r0 : Row) :
  rows s !! k = Some r0 → route_id r ≠ Some k →
  rows (ProductsController.handle r s).2 !! k = Some r0.
Proof.
  intros Hk Hother.
  destruct (handle_effect r s) as (_ & _ & [Hsame | [Hpost | [Hput | Hdel]]]).
  - by rewrite Hsame.
  - destruct Hpost as (body & t & d & _ & _ & _ & Hfree & ->).
    rewrite lookup_insert_ne; [done|]. intros <-. by rewrite Hfree in Hk.
  - destruct Hput as (id & body & r1 & -> & _ & _ & ->).
    rewrite lookup_insert_ne; [done|]. intros <-. by apply Hother.
  - destruct Hdel as (id & r1 & -> & _ & ->).
    rewrite lookup_delete_ne; [done|]. intros <-. by apply Hother.
Qed.

Lemma other_rows_untouched_witness :
  rows one_speaker !! 1 = Some speaker_row ∧
  route_id (DELETE_product 2) ≠ Some 1 ∧
  rows (ProductsController.handle (DELETE_product 2) one_speaker).2 !! 1
    = Some speaker_row.
Proof.
  split; [reflexivity|]. split; [discriminate|].
  apply (other_rows_untouched one_speaker (DELETE_product 2) 1 speaker_row);
    [reflexivity | discriminate].
Defined.

(** X6: the two GET routes only read.  They leave the table and the
    sequence as they are, and the same GET served again gives the same
    answer. *)
Theorem reads_change_nothing (s : Db) (r : Request) :
  r = GET_products ∨ (∃ id, r = GET_product id) →
  same_storage s (ProductsController.handle r s).2 ∧
  (ProductsController.handle r (ProductsController.handle r s).2).1
    = (ProductsController.handle r s).1.
Proof.
  intros [-> | [id ->]].
  - done.
  - route. find_row id s r E.
    + rewrite (getProduct_present s id r E). simpl.
      by rewrite (getProduct_present (record_access (AFindOne id) s) id r E).
    + rewrite (getProduct_absent s id E). simpl.
      by rewrite (getProduct_absent (record_access (AFindOne id) s) id E).
Qed.

Lemma reads_change_nothing_witness :
  (GET_product 1 = GET_products ∨ (∃ id, GET_product 1 = GET_product id)) ∧
  same_storage one_speaker
    (ProductsController.handle (GET_product 1) one_speaker).2 ∧
  (ProductsController.handle (GET_product 1)
     (ProductsController.handle (GET_product 1) one_speaker).2).1
    = (ProductsController.handle (GET_product 1) one_speaker).1.
Proof.
  split; [right; by exists 1|].
  apply (reads_change_nothing one_speaker (GET_product 1)).
  right. by exists 1.
Defined.

(** X7: the list route never fails and answers with exactly the products
    the get route can return: a product is in the list if and only if a get
    of some id answers with it; no product is listed twice, and there are as
    many as rows. *)
Theorem list_matches_get (s : Db) :
  ∃ ps,
    (ProductsController.handle GET_products s).1 = Return (ProductList ps) ∧
    NoDup ps ∧
    length ps = size (rows s) ∧
    ∀ p, p ∈ ps ↔
         ∃ id, (ProductsController.handle (GET_product id) s).1
                 = Return (OneProduct p).
Proof.
  eexists. split; [reflexivity|]. split; [|split].
  - apply NoDup_fmap_2_strong; [|apply NoDup_map_to_list].
    intros [k1 r1] [k2 r2] _ _ [= -> Ht Hd Hc Hu].
    destruct r1, r2. simpl in *. by subst.
  - by rewrite length_fmap, length_map_to_list.
  - intros p. rewrite list_elem_of_fmap. split.
    + intros ([k r] & -> & Hin%elem_of_map_to_list). exists k. route.
      by rewrite (getProduct_present s k r Hin).
    + intros [id Hget]. revert Hget. route.
      find_row id s r E.
      * rewrite (getProduct_present s id r E). intros [= <-].
        exists (id, r). split; [done|]. by apply elem_of_map_to_list.
      * by rewrite (getProduct_absent s id E).
Qed.

(** X8: after a delete request for an id, whether it found the product or
    not, a get and a second delete of that id find no row: they answer
    NotFound when the id is a value of the id column (a 32-bit integer), and
    an internal error for any other number. *)
Theorem delete_then_gone (s : Db) (id : number) :
  (ProductsController.handle (GET_product id)
     (ProductsController.handle (DELETE_product id) s).2).1
    = Throw (miss id) ∧
  (ProductsController.handle (DELETE_product id)
     (ProductsController.handle (DELETE_product id) s).2).1
    = Throw (miss id).
Proof.
  assert (row_at id (ProductsController.handle (DELETE_product id) s).2 = None)
    as Hgone.
  { route. find_row id s r E.
    - rewrite (deleteProduct_present s id r E). simpl. apply lookup_delete_eq.
    - by rewrite (deleteProduct_absent s id E). }
  split.
  - cbn [ProductsController.handle].
    unfold ProductsController.getProduct at 1, await at 1.
    by rewrite getProduct_absent.
  - cbn [ProductsController.handle].
    unfold ProductsController.deleteProduct at 1, await at 1.
    by rewrite deleteProduct_absent.
Qed.

(** * The errors a request can be answered with *)




(** X10: NotFound is only answered to a request with an id in its path, and
    only when the table has no row under that id. *)
Theorem not_found_only_when_absent (s : Db) (r : Request) :
  (ProductsController.handle r s).1 = Throw NotFound →
  ∃ id, route_id r = Some id ∧ rows s !! id = None.
Proof.
  destruct r as [|id|body|id body|id]; route.
  - done.
  - find_row id s r E.
    + by rewrite (getProduct_present s id r E).
    + rewrite (getProduct_absent s id E).
      intros [= (z & -> & _)%miss_NotFound]. by exists z.
  - destruct (decide (validate CreateProductDtoClass body = [])) as [Hv|Hv].
    + rewrite ValidationPipe_accepts by done.
      apply validate_nil, plainToInstance_valid in Hv as (ti & d & -> & _).
      destruct (rows s !! products_id_seq s) as [r|] eqn:E.
      * by rewrite (createProduct_taken s ti d r E).
      * by rewrite createProduct_fresh.
    + by rewrite ValidationPipe_rejects.
  - destruct (decide (validate UpdateProductDtoClass body = [])) as [Hv|Hv].
    + rewrite ValidationPipe_accepts by done.
      find_row id s r E.
      * by destruct (updateProduct_present s id r (plainToInstance body) E)
          as (s' & -> & _).
      * rewrite updateProduct_absent by done.
        intros [= (z & -> & _)%miss_NotFound]. by exists z.
    + by rewrite ValidationPipe_rejects.
  - find_row id s r E.
    + by rewrite (deleteProduct_present s id r E).
    + rewrite (deleteProduct_absent s id E).
      intros [= (z & -> & _)%miss_NotFound]. by exists z.
Qed.

Lemma not_found_only_when_absent_witness :
  (ProductsController.handle (DELETE_product 2) one_speaker).1 = Throw NotFound ∧
  ∃ id, route_id (DELETE_product 2) = Some id ∧ rows one_speaker !! id = None.
Proof.
  split; [reflexivity|].
  apply (not_found_only_when_absent one_speaker (DELETE_product 2)).
  reflexivity.
Defined.

(** X11: a create or update body that is not valid (a field missing, not a
    string or out of bounds, or a field too many) is answered by a
    BadRequest with at least one error and the database is exactly as
    before; for an update this holds whether or not the id exists, so the
    BadRequest comes before any NotFound. *)
Theorem invalid_body_rejected (s : Db) (body : gmap string json) :
  ¬ valid_body body →
  ∃ errors,
    errors ≠ [] ∧
    ProductsController.handle (POST_products body) s
      = (Throw (BadRequest errors), s) ∧
    ∀ id, ProductsController.handle (PUT_product id body) s
            = (Throw (BadRequest errors), s).
Proof.
  intros Hinvalid.
  assert (validate CreateProductDtoClass body ≠ []) as Hne.
  { intros Hnil. by apply Hinvalid, (validate_nil CreateProductDtoClass). }
  exists (validate CreateProductDtoClass body). split; [done|]. split.
  - route. by rewrite ValidationPipe_rejects.
  - intros id. route. rewrite ValidationPipe_rejects; [done|].
    by rewrite validate_inherited.
Qed.

Lemma invalid_body_rejected_witness :
  ¬ valid_body ∅ ∧
  ∃ errors,
    errors ≠ [] ∧
    ProductsController.handle (POST_products ∅) one_speaker
      = (Throw (BadRequest errors), one_speaker) ∧
    ∀ id, ProductsController.handle (PUT_product id ∅) one_speaker
            = (Throw (BadRequest errors), one_speaker).
Proof.
  assert (¬ valid_body ∅) as Hinvalid.
  { intros ((t & Ht & _) & _). vm_compute in Ht. discriminate. }
  split; [exact Hinvalid|].
  apply (invalid_body_rejected one_speaker ∅ Hinvalid).
Defined.

(** X12: a BadRequest is only answered to a create or an update, only when
    its body is not valid, and then the database is exactly as before. *)
Theorem bad_request_only_when_invalid
    (s : Db) (r : Request) (errors : list ValidationError.t) :
  (ProductsController.handle r s).1 = Throw (BadRequest errors) →
  ∃ body,
    (r = POST_products body ∨ ∃ id, r = PUT_product id body) ∧
    ¬ valid_body body ∧ errors ≠ [] ∧
    (ProductsController.handle r s).2 = s.
Proof.
  destruct r as [|id|body|id body|id]; route.
  - done.
  - find_row id s r E.
    + by rewrite (getProduct_present s id r E).
    + rewrite (getProduct_absent s id E). by intros [= ?%miss_BadRequest].
  - destruct (decide (validate CreateProductDtoClass body = [])) as [Hv|Hv].
    + rewrite ValidationPipe_accepts by done.
      apply validate_nil, plainToInstance_valid in Hv as (ti & d & -> & _).
      destruct (rows s !! products_id_seq s) as [r|] eqn:E.
      * by rewrite (createProduct_taken s ti d r E).
      * by rewrite createProduct_fresh.
    + rewrite ValidationPipe_rejects by done. intros [= <-].
      exists body. split; [by left|]. split; [|done].
      by rewrite <- (validate_nil CreateProductDtoClass).
  - destruct (decide (validate UpdateProductDtoClass body = [])) as [Hv|Hv].
    + rewrite ValidationPipe_accepts by done.
      find_row id s r E.
      * by destruct (updateProduct_present s id r (plainToInstance body) E)
          as (s' & -> & _).
      * rewrite updateProduct_absent by done.
        by intros [= ?%miss_BadRequest].
    + rewrite ValidationPipe_rejects by done. intros [= <-].
      exists body. split; [right; by exists id|]. split; [|done].
      by rewrite <- (validate_nil UpdateProductDtoClass).
  - find_row id s r E.
    + by rewrite (deleteProduct_present s id r E).
    + rewrite (deleteProduct_absent s id E). by intros [= ?%miss_BadRequest].
Qed.

Lemma bad_request_only_when_invalid_witness :
  let errors :=
    [ValidationError.Build "title" ["isString"; "minLength"; "maxLength"];
     ValidationError.Build "description"
       ["isString"; "minLength"; "maxLength"]] in
  (ProductsController.handle (PUT_product 1 ∅) one_speaker).1
    = Throw (BadRequest errors) ∧
  ∃ body,
    (PUT_product 1 ∅ = POST_products body ∨
     ∃ id, PUT_product 1 ∅ = PUT_product id body) ∧
    ¬ valid_body body ∧ errors ≠ [] ∧
    (ProductsController.handle (PUT_product 1 ∅) one_speaker).2 = one_speaker.
Proof.
  intros errors. split; [reflexivity|].
  apply (bad_request_only_when_invalid one_speaker (PUT_product 1 ∅) errors).
  reflexivity.
Defined.

(** * What the pipe accepts and what it reports *)

(** X13: the pipe hands a DTO to the service exactly for the bodies made of
    a title of 6 to 32 characters and a description of 32 to 1024
    characters and nothing else, bounds included; the DTO carries these two
    strings, and the database is not touched. *)
Theorem pipe_accepts_exactly
    (m : Metatype) (body : gmap string json) (s : Db)
    (dto : CreateProductDto.t) :
  ValidationPipe m body s = (Return dto, s) ↔
  ∃ t d,
    body = {[ "title" := JString t; "description" := JString d ]} ∧
    dto = CreateProductDto.Build (Some t) (Some d) ∧
    (6 ≤ String.length t ≤ 32)%nat ∧ (32 ≤ String.length d ≤ 1024)%nat.
Proof.
  split.
  - intros Hpipe.
    destruct (decide (validate m body = [])) as [Hv|Hv];
      [|by rewrite ValidationPipe_rejects in Hpipe].
    rewrite ValidationPipe_accepts in Hpipe by done.
    pose proof (proj1 (validate_nil m body) Hv) as Hvalid.
    destruct (plainToInstance_valid body Hvalid)
      as (t & d & Hdto & Ht & Hd & ? & ?).
    exists t, d. split; [|split; [congruence | done]].
    destruct Hvalid as (_ & _ & Honly).
    apply map_eq. intros k.
    destruct (decide (k = "title")) as [->|Hnt]; [by rewrite Ht|].
    destruct (decide (k = "description")) as [->|Hnd]; [by rewrite Hd|].
    rewrite lookup_insert_ne, lookup_singleton_ne by done.
    destruct (body !! k) eqn:E; [|done].
    assert (k ∈ ["title"; "description"]) as Hin by (apply Honly; by rewrite E).
    rewrite !elem_of_cons, elem_of_nil in Hin. intuition.
  - intros (t & d & -> & -> & Ht & Hd).
    rewrite ValidationPipe_accepts; [done|].
    apply validate_nil. split; [by exists t|]. split; [by exists d|].
    intros k [v Hk].
    destruct (decide (k = "title")) as [->|Hnt]; [left|].
    destruct (decide (k = "description")) as [->|Hnd]; [right; left|].
    by rewrite lookup_insert_ne, lookup_singleton_ne in Hk.
Qed.

(** X14: a field is reported in the errors of a body if and only if it
    offends: the title or the description when it is not a string within
    its bounds, any other field when it is present. *)
Theorem field_reported_iff (m : Metatype) (body : gmap string json) (k : string) :
  (∃ e, e ∈ validate m body ∧ ValidationError.property e = k) ↔
  (k = "title" ∧ ¬ within 6 32 (body !! "title")) ∨
  (k = "description" ∧ ¬ within 32 1024 (body !! "description")) ∨
  (k ≠ "title" ∧ k ≠ "description" ∧ is_Some (body !! k)).
Proof.
  split.
  - intros (e & [Hw | Hp]%elem_of_app & <-).
    + apply list_elem_of_omap in Hw as ([k v] & Hin%elem_of_map_to_list & Hf).
      simpl in Hf. case_bool_decide as Hdecl; [done|].
      injection Hf as <-. simpl.
      rewrite declared_fields, !elem_of_cons, elem_of_nil in Hdecl.
      right. right. split; [tauto|]. split; [tauto | by exists v].
    + apply list_elem_of_omap in Hp as (decl & Hdecl & Hdeclerr).
      rewrite (property_errors_property body decl e Hdeclerr).
      assert (decl = ("title", [IsString; MinLength 6; MaxLength 32]) ∨
              decl = ("description", [IsString; MinLength 32; MaxLength 1024]))
        as [-> | ->].
      { destruct m; simpl in Hdecl;
          unfold UpdateProductDto.metadata, CreateProductDto.metadata in Hdecl;
          rewrite !elem_of_cons, elem_of_nil in Hdecl; tauto. }
      * left. split; [done|]. rewrite <- property_errors_none.
        by rewrite Hdeclerr.
      * right. left. split; [done|]. rewrite <- property_errors_none.
        by rewrite Hdeclerr.
  - intros [[-> Hout] | [[-> Hout] | (Hnt & Hnd & [v Hv])]].
    + apply (validate_reports m body "title" 6 32); [|done].
      destruct m; simpl; left.
    + apply (validate_reports m body "description" 32 1024); [|done].
      destruct m; simpl; right; left.
    + exists (ValidationError.Build k ["whitelistValidation"]).
      split; [|reflexivity].
      apply elem_of_app. left. apply (whitelist_errors_elem m body k v Hv).
      rewrite declared_fields, !elem_of_cons, elem_of_nil. tauto.
Qed.

(** X15: the error on a declared field gives the reason: minLength alone for
    a string that is too short, maxLength alone for one that is too long, and
    isString, minLength and maxLength together for a value that is not a
    string or is absent. *)
Theorem reported_reasons
    (m : Metatype) (body : gmap string json) (e : ValidationError.t)
    (name : string) (min max : nat) :
  (name, [IsString; MinLength min; MaxLength max]) ∈ metadata_of m →
  e ∈ validate m body →
  ValidationError.property e = name →
  ValidationError.constraints e = failed_constraints min max (body !! name) ∧
  ValidationError.constraints e ≠ [].
Proof.
  intros Hname [Hw | Hp]%elem_of_app Hprop.
  - apply list_elem_of_omap in Hw as ([k v] & _ & Hf). simpl in Hf.
    case_bool_decide as Hdecl; [done|]. injection Hf as <-. simpl in Hprop.
    subst k. exfalso. apply Hdecl. unfold declared.
    by apply (list_elem_of_fmap_2 fst) in Hname.
  - apply list_elem_of_omap in Hp as (decl & Hdecl & Hdeclerr).
    pose proof (property_errors_property body decl e Hdeclerr) as Hp.
    assert (decl = (name, [IsString; MinLength min; MaxLength max])
            ∧ (min ≤ max)%nat) as [-> Hle].
    { rewrite Hprop in Hp.
      destruct m; simpl in Hdecl, Hname;
        unfold UpdateProductDto.metadata, CreateProductDto.metadata
          in Hdecl, Hname;
        rewrite !elem_of_cons, elem_of_nil in Hdecl, Hname;
        destruct Hdecl as [-> | [-> | []]];
        destruct Hname as [[= -> -> ->] | [[= -> -> ->] | []]];
        simpl in Hp; (done || (split; [done|lia])). }
    revert Hdeclerr. unfold property_errors, failed_constraints. simpl.
    destruct (body !! name) as [[| | |v| |]|];
      try (intros [= <-]; by simpl).
    rewrite !filter_cons, filter_nil. simpl.
    destruct (Nat.leb_spec min (String.length v)) as [Hmin|Hmin],
             (Nat.leb_spec (String.length v) max) as [Hmax|Hmax],
             (Nat.ltb_spec (String.length v) min) as [Hmin'|Hmin'],
             (Nat.ltb_spec max (String.length v)) as [Hmax'|Hmax'];
      simpl; try lia; try done; by intros [= <-].
Qed.

Lemma reported_reasons_witness :
  let body : gmap string json := <["title" := JString "abc"]> speaker_body in
  let e := ValidationError.Build "title" ["minLength"] in
  ("title", [IsString; MinLength 6; MaxLength 32])
    ∈ metadata_of CreateProductDtoClass ∧
  e ∈ validate CreateProductDtoClass body ∧
  ValidationError.property e = "title" ∧
  ValidationError.constraints e = failed_constraints 6 32 (body !! "title") ∧
  ValidationError.constraints e ≠ [].
Proof.
  intros body e.
  assert (("title", [IsString; MinLength 6; MaxLength 32])
            ∈ metadata_of CreateProductDtoClass) as Hdecl by (simpl; left).
  assert (e ∈ validate CreateProductDtoClass body) as Hin
    by (vm_compute; left).
  split; [exact Hdecl|]. split; [exact Hin|]. split; [reflexivity|].
  apply (reported_reasons CreateProductDtoClass body e "title" 6 32
           Hdecl Hin eq_refl).
Defined.

(** * A product over its lifetime *)

(** One request on a reachable table: a row found afterwards under an id
    that was already given out is the row that was there, with the same
    created_at and an updated_at that has not moved back. *)
Lemma serve_keeps_dates s t r id r' :
  db_ok s → clock s ≤ t → id < products_id_seq s →
  rows (serve t r s).2 !! id = Some r' →
  ∃ r0, rows s !! id = Some r0 ∧
        row_created_at r' = row_created_at r0 ∧
        row_updated_at r0 ≤ row_updated_at r'.
Proof.
  intros [Hrows _] Hclock Hid. unfold serve.
  destruct (handle_effect r (set_clock t s))
    as (_ & _ & [Hsame | [Hpost | [Hput | Hdel]]]); simpl in *.
  - rewrite Hsame. intros Hrow. exists r'. split; [done|]. split; [done|lia].
  - destruct Hpost as (body & ti & d & _ & _ & _ & _ & ->).
    rewrite lookup_insert_ne by lia.
    intros Hrow. exists r'. split; [done|]. split; [done|lia].
  - destruct Hput as (id' & body & r0 & _ & _ & H0 & ->).
    rewrite lookup_insert. case_decide as Heq.
    + subst id'. intros [= <-]. exists r0. split; [done|].
      destruct (updated_row_dates t r0 (plainToInstance body)) as [Hc Hu].
      split; [done|]. apply Hu. destruct (Hrows id r0 H0). lia.
    + intros Hrow. exists r'. split; [done|]. split; [done|lia].
  - destruct Hdel as (id' & r0 & _ & _ & ->).
    rewrite lookup_delete. case_decide as Heq; [done|].
    intros Hrow. exists r'. split; [done|]. split; [done|lia].
Qed.

(** X16: a product that is in the table now and is still there after any
    number of further requests has kept its created_at, and its updated_at
    has not moved back.  (An id is never given again, so the row is the
    same product.) *)
Theorem kept_rows_keep_dates (s s' : Db) (id : Z) (r r' : Row) :
  reachable s → serves_to s s' →
  rows s !! id = Some r → rows s' !! id = Some r' →
  row_created_at r' = row_created_at r ∧
  row_updated_at r ≤ row_updated_at r'.
Proof.
  intros Hs Hrun H. revert r'.
  induction Hrun as [|t req s1 Hrun IH Hclock]; intros r' H'.
  - rewrite H in H'. injection H' as <-. split; [done|lia].
  - assert (id < products_id_seq s1) as Hid.
    { apply serves_to_seq in Hrun.
      assert (id < products_id_seq s)
        by (apply (reachable_db_ok s Hs); by rewrite H).
      lia. }
    destruct (serve_keeps_dates s1 t req id r') as (r1 & H1 & Hc & Hu);
      [by eapply reachable_db_ok, serves_to_reachable | done..|].
    destruct (IH r1 H1) as [Hc1 Hu1]. split; [congruence | lia].
Qed.

Lemma kept_rows_keep_dates_witness :
  let body : gmap string json := <["title" := JString "Speaker B"]> speaker_body in
  let s' := (serve 20 (PUT_product 1 body) one_speaker).2 in
  let r' := {| row_title := "Speaker B";
               row_description := "A two-way bookshelf speaker, sold in pairs.";
               row_created_at := 10; row_updated_at := 20 |} in
  reachable one_speaker ∧ serves_to one_speaker s' ∧
  rows one_speaker !! 1 = Some speaker_row ∧ rows s' !! 1 = Some r' ∧
  row_created_at r' = row_created_at speaker_row ∧
  row_updated_at speaker_row ≤ row_updated_at r'.
Proof.
  intros body s' r'.
  assert (serves_to one_speaker s') as Hrun.
  { apply (serves_to_step _ 20 (PUT_product 1 body) one_speaker);
      [apply serves_to_refl | by vm_compute]. }
  split; [exact reachable_one_speaker|]. split; [exact Hrun|].
  split; [reflexivity|]. split; [reflexivity|].
  apply (kept_rows_keep_dates one_speaker s' 1 speaker_row r'
           reachable_one_speaker Hrun); reflexivity.
Defined.

(** * Configuration *)

Section config_facts.
Context (Number : string → option number).



End config_facts.

(** X17: when one of the five POSTGRES variables is not set, the process
    does not start: the configuration is refused with an error that names
    the variable as required. *)
Theorem missing_variable_refused
    (Number : string → option number) (env : gmap string string)
    (k : string) :
  k ∈ ["POSTGRES_HOST"; "POSTGRES_PORT"; "POSTGRES_USER"; "POSTGRES_PASSWORD";
       "POSTGRES_DB"] →
  env !! k = None →
  ∃ errors,
    bootstrap Number env = ConfigError errors ∧
    (k, AnyRequired) ∈ errors.
Proof.
  intros Hk Hnone.
  assert ((k, AnyRequired) ∈ config_errors Number env) as Hin.
  { unfold config_errors. apply list_elem_of_omap.
    rewrite !elem_of_cons, elem_of_nil in Hk.
    destruct Hk as [-> | [-> | [-> | [-> | [-> | []]]]]];
      match goal with
      | H : env !! ?key = None |- _ => eexists (key, Build_JoiKey _ true)
      end;
      (split; [unfold validationSchema; rewrite !elem_of_cons; eauto 10
              | simpl; by rewrite Hnone]). }
  exists (config_errors Number env). split; [|done].
  unfold bootstrap. destruct (config_errors Number env); [|done].
  by apply elem_of_nil in Hin.
Qed.

Lemma missing_variable_refused_witness :
  let env := delete "POSTGRES_DB" readme_env in
  "POSTGRES_DB" ∈ ["POSTGRES_HOST"; "POSTGRES_PORT"; "POSTGRES_USER";
                   "POSTGRES_PASSWORD"; "POSTGRES_DB"] ∧
  env !! "POSTGRES_DB" = None ∧
  ∃ errors,
    bootstrap decimal env = ConfigError errors ∧
    ("POSTGRES_DB", AnyRequired) ∈ errors.
Proof.
  intros env.
  assert ("POSTGRES_DB" ∈ ["POSTGRES_HOST"; "POSTGRES_PORT"; "POSTGRES_USER";
                           "POSTGRES_PASSWORD"; "POSTGRES_DB"]) as Hk
    by (rewrite !elem_of_cons; tauto).
  split; [exact Hk|]. split; [reflexivity|].
  apply (missing_variable_refused decimal env "POSTGRES_DB" Hk).
  reflexivity.
Defined.


Example bootstrap_readme :
  bootstrap decimal readme_env
    = Listening 3000 (Some "http://localhost:5173").
Proof. by vm_compute. Qed.

Example bootstrap_default_port :
  bootstrap decimal
    (<["PORT" := "8080"]> (<["NODE_ENV" := "production"]> readme_env))
    = Listening 8080 (Some "http://localhost:5173") ∧
  bootstrap decimal (delete "PORT" (delete "FRONTEND_URL" readme_env))
    = Listening 3000 None.
Proof. split; by vm_compute. Qed.

Example bootstrap_bad_port :
  bootstrap decimal (<["PORT" := "70000"]> readme_env) = ListenError 70000.
Proof. by vm_compute. Qed.
